(** * The front-end entry point [src/frontend/src/main.jsx]

    The module is a straight line of calls into its host and into the
    rendering framework:

      import React from 'react'
      import ReactDOM from 'react-dom/client'
      import App from './App.jsx'
      import './assets/styles/GlobalStyle.scss'

      ReactDOM.createRoot(document.getElementById('root')).render(
        <React.StrictMode><App /></React.StrictMode>)

    Nothing it calls lives in this file.  The module is therefore embedded as
    a program over the four kinds of call it makes, and run against an
    environment that answers those calls.  Every answer may be a normal
    return or a thrown exception; the module has no [try], so a throw ends
    the run.  The interpreter, not the environment, records the calls.

    The JSX argument of [render] denotes a value, the element tree; building
    it calls nothing of the environment. *)

From Stdlib Require Import String List Arith Lia.
From stdpp Require Import base option list strings.
Import ListNotations.
Local Open Scope string_scope.
Local Open Scope list_scope.
Set Warnings "-register-all".

(** ** Host document *)

(** Modelled from the spec: the host document is not part of the sources at
    hand.  The spec has it as a presentation tree of nodes, one of which may
    be identified by the string "root". *)
Module Dom.

(** A node of the presentation tree: text, or an element with its tag, its
    [id] attribute and its child nodes. *)
Inductive Node : Type :=
| TextNode (data : string)
| ElementNode (tag : string) (id : option string) (childNodes : list Node).

(** A reference to a node: the child indices leading to it from the
    document's top element. *)
Definition Path : Type := list nat.

Definition childrenOf (n : Node) : list Node :=
  match n with
  | TextNode _ => []
  | ElementNode _ _ kids => kids
  end.

Fixpoint nodeAt (p : Path) (n : Node) : option Node :=
  match p with
  | [] => Some n
  | k :: p' =>
      match childrenOf n !! k with
      | Some c => nodeAt p' c
      | None => None
      end
  end.

(** What identifies a node apart from its descendants. *)
Inductive Label : Type :=
| LText (data : string)
| LElement (tag : string) (id : option string) (arity : nat).

Definition label (n : Node) : Label :=
  match n with
  | TextNode s => LText s
  | ElementNode t i kids => LElement t i (length kids)
  end.

Definition hasId (i : string) (n : Node) : bool :=
  match n with
  | ElementNode _ (Some j) _ => String.eqb i j
  | _ => false
  end.

(** The first child, from index [k] on, in which [find] succeeds. *)
Definition scanChildren (find : Node -> option Path)
  : nat -> list Node -> option Path :=
  fix scan (k : nat) (l : list Node) {struct l} : option Path :=
    match l with
    | [] => None
    | c :: l' =>
        match find c with
        | Some p => Some (k :: p)
        | None => scan (S k) l'
        end
    end.

(** [document.getElementById]: the first element in tree order carrying
    the identifier, or nothing ([null]). *)
Fixpoint findById (i : string) (n : Node) : option Path :=
  if hasId i n then Some []
  else
    match n with
    | TextNode _ => None
    | ElementNode _ _ kids => scanChildren (findById i) 0 kids
    end.

(** [node.textContent]. *)
Fixpoint textContent (n : Node) : string :=
  match n with
  | TextNode s => s
  | ElementNode _ _ kids => String.concat "" (map textContent kids)
  end.

(** Replace the children of the element at [p]; a path that leads nowhere,
    or to a text node, leaves the tree as it is. *)
Fixpoint replaceChildren (p : Path) (new : list Node) (n : Node) : Node :=
  match n with
  | TextNode _ => n
  | ElementNode t i kids =>
      match p with
      | [] => ElementNode t i new
      | k :: p' =>
          match kids !! k with
          | Some c => ElementNode t i (<[k := replaceChildren p' new c]> kids)
          | None => n
          end
      end
  end.

End Dom.

Import Dom.

(** ** Values the module handles *)

(** Modelled from the spec: [./App.jsx] is not part of the sources at hand.
    A component is opaque to the entry point; the renderer needs only the
    markup it produces and the side-effecting lifecycle hooks it declares. *)
Record Component : Type := {
  displayName : string;
  hooks : list string;
  output : list Node
}.

(** A component tree, as JSX denotes it.  [StrictMode] is
    [<React.StrictMode>], [Use c] is [<c />]. *)
Inductive Element : Type :=
| Text (data : string)
| Host (tag : string) (id : option string) (children : list Element)
| StrictMode (children : list Element)
| Use (c : Component).

(** The handle [ReactDOM.createRoot] returns. *)
Record Root : Type := {
  rootId : nat;
  container : Path
}.

Record Error : Type := JsError { message : string }.

(** A call either returns or throws. *)
Inductive Result (A : Type) : Type :=
| Returned (a : A)
| Threw (e : Error).
Arguments Returned {A} a.
Arguments Threw {A} e.

(** ** Programs over the module's calls *)

Inductive Call : Type -> Type :=
| Import (specifier : string) : Call unit
| GetElementById (id : string) : Call (option Path)
| CreateRoot (node : option Path) : Call Root
| Render (root : Root) (tree : Element) : Call unit.

Inductive Prog (A : Type) : Type :=
| Done (a : A)
| Do {X : Type} (c : Call X) (k : X -> Prog A).
Arguments Done {A} a.
Arguments Do {A X} c k.

Declare Scope prog_scope.
Delimit Scope prog_scope with prog.
Notation "x <- c ;; k" := (Do c (fun x => k))
  (at level 100, c at next level, right associativity) : prog_scope.
Notation "c ;; k" := (Do c (fun _ => k))
  (at level 100, right associativity) : prog_scope.

(** Lines 6 to 10: the module body. *)
Definition body (App : Component) : Prog unit :=
  (node <- GetElementById "root" ;;
   root <- CreateRoot node ;;
   Render root (StrictMode [Use App]) ;;
   Done tt)%prog.

(** The whole module: its imports are evaluated in source order before the
    body runs. *)
Definition main (App : Component) : Prog unit :=
  (Import "react" ;;
   Import "react-dom/client" ;;
   Import "./App.jsx" ;;
   Import "./assets/styles/GlobalStyle.scss" ;;
   body App)%prog.

(** ** Environments and runs *)

(** What answers the calls: the module loader, the host document and the
    rendering framework, over a state [W] of their own. *)
Record Env (W : Type) : Type := {
  importModule : string -> W -> Result unit * W;
  getElementById : string -> W -> Result (option Path) * W;
  createRoot : option Path -> W -> Result Root * W;
  render : Root -> Element -> W -> Result unit * W
}.
Arguments importModule {W} _ _ _.
Arguments getElementById {W} _ _ _.
Arguments createRoot {W} _ _ _.
Arguments render {W} _ _ _ _.

Definition handle {W X : Type} (E : Env W) (c : Call X) : W -> Result X * W :=
  match c in Call T return W -> Result T * W with
  | Import m => importModule E m
  | GetElementById i => getElementById E i
  | CreateRoot n => createRoot E n
  | Render r t => render E r t
  end.

(** One entry of the record of a run: a call and how it ended. *)
Inductive Event : Type :=
| EvImport (specifier : string) (r : Result unit)
| EvGetElementById (id : string) (r : Result (option Path))
| EvCreateRoot (node : option Path) (r : Result Root)
| EvRender (root : Root) (tree : Element) (r : Result unit).

Definition event {X : Type} (c : Call X) : Result X -> Event :=
  match c in Call T return Result T -> Event with
  | Import m => EvImport m
  | GetElementById i => EvGetElementById i
  | CreateRoot n => EvCreateRoot n
  | Render r t => EvRender r t
  end.

Record Run (W A : Type) : Type := {
  trace : list Event;
  outcome : Result A;
  final : W
}.
Arguments trace {W A} _.
Arguments outcome {W A} _.
Arguments final {W A} _.

(** A throw is not caught anywhere: it ends the run and is its outcome. *)
Fixpoint run {W A : Type} (E : Env W) (p : Prog A) (w : W) : Run W A :=
  match p with
  | Done a => {| trace := []; outcome := Returned a; final := w |}
  | Do c k =>
      match handle E c w with
      | (Returned x, w') =>
          let rest := run E (k x) w' in
          {| trace := event c (Returned x) :: trace rest;
             outcome := outcome rest;
             final := final rest |}
      | (Threw e, w') =>
          {| trace := [event c (Threw e)]; outcome := Threw e; final := w' |}
      end
  end.

(** ** Reading a record *)

Definition lookups (t : list Event) : list string :=
  flat_map (fun e => match e with EvGetElementById i _ => [i] | _ => [] end) t.

(** What the lookups returned. *)
Definition resolved (t : list Event) : list (option Path) :=
  flat_map (fun e => match e with
                     | EvGetElementById _ (Returned n) => [n]
                     | _ => []
                     end) t.

(** The nodes handed to [createRoot]. *)
Definition creations (t : list Event) : list (option Path) :=
  flat_map (fun e => match e with EvCreateRoot n _ => [n] | _ => [] end) t.

(** The roots [createRoot] returned. *)
Definition created (t : list Event) : list Root :=
  flat_map (fun e => match e with
                     | EvCreateRoot _ (Returned r) => [r]
                     | _ => []
                     end) t.

(** The render requests: the root asked, and the tree handed over. *)
Definition renders (t : list Event) : list (Root * Element) :=
  flat_map (fun e => match e with EvRender r x _ => [(r, x)] | _ => [] end) t.

Inductive Step : Type := Resolve | Create | Request.

(** The three steps of the body, in the order the record has them. *)
Definition steps (t : list Event) : list Step :=
  flat_map (fun e => match e with
                     | EvImport _ _ => []
                     | EvGetElementById _ _ => [Resolve]
                     | EvCreateRoot _ _ => [Create]
                     | EvRender _ _ _ => [Request]
                     end) t.

Definition isRender (e : Event) : bool :=
  match e with EvRender _ _ _ => true | _ => false end.

Definition isBodyCall (e : Event) : bool :=
  match e with EvImport _ _ => false | _ => true end.

Definition stylesheet : string := "./assets/styles/GlobalStyle.scss".

(** ** A reference environment *)

Module Reference.

(** Modelled from the spec: the rendering framework, the module loader and
    the stylesheet pipeline are external to the sources at hand.  The spec
    describes them as: create a root bound to a node; render a component
    tree into a root, inserting the rendered markup under the mount point;
    the diagnostic wrapper leaves the rendered output alone and re-invokes
    lifecycle hooks; loading the stylesheet is a side effect of the import;
    a missing mount point is a failure. *)
Record World : Type := {
  document : Node;
  loaded : list string;
  roots : list Root;
  invoked : list string
}.

(** Modelled from the spec: one traversal of the component tree gives the
    markup and the hooks invoked, in order.  Under the diagnostic wrapper
    the hooks of a component are invoked a second time. *)
Definition collect (f : Element -> list Node * list string)
    (l : list Element) : list Node * list string :=
  fold_right (fun x acc => (fst (f x) ++ fst acc, snd (f x) ++ snd acc))
             ([], []) l.

Fixpoint renderTree (strict : bool) (t : Element) {struct t}
  : list Node * list string :=
  match t with
  | Text s => ([TextNode s], [])
  | Host tag i kids =>
      let r := collect (renderTree strict) kids in
      ([ElementNode tag i (fst r)], snd r)
  | StrictMode kids => collect (renderTree true) kids
  | Use c => (output c, if strict then hooks c ++ hooks c else hooks c)
  end.

Definition markup (t : Element) : list Node := fst (renderTree false t).
Definition hookCalls (t : Element) : list string := snd (renderTree false t).

Definition notAnElement : Error :=
  JsError "Target container is not a DOM element.".

(** Modelled from the spec: the four operations the entry point consumes. *)
Definition env : Env World := {|
  importModule m w :=
    (Returned tt,
     {| document := document w; loaded := loaded w ++ [m];
        roots := roots w; invoked := invoked w |});
  getElementById i w := (Returned (findById i (document w)), w);
  createRoot n w :=
    match n with
    | None => (Threw notAnElement, w)
    | Some p =>
        let r := {| rootId := length (roots w); container := p |} in
        (Returned r,
         {| document := document w; loaded := loaded w;
            roots := roots w ++ [r]; invoked := invoked w |})
    end;
  render r t w :=
    (Returned tt,
     {| document := replaceChildren (container r) (markup t) (document w);
        loaded := loaded w; roots := roots w;
        invoked := invoked w ++ hookCalls t |})
|}.

(** The state a host hands the module: its document, nothing loaded yet. *)
Definition start (d : Node) : World :=
  {| document := d; loaded := []; roots := []; invoked := [] |}.

End Reference.

(** ** Concrete hosts used below *)

Definition helloApp : Component :=
  {| displayName := "App"; hooks := ["useEffect"]; output := [TextNode "Hello"] |}.

(** [<div id="root"></div>]. *)
Definition rootDiv : Node := ElementNode "div" (Some "root") [].

(** A page with a heading beside the mount point. *)
Definition page : Node :=
  ElementNode "body" None
    [ElementNode "h1" None [TextNode "CleanPro"];
     ElementNode "div" (Some "root") [TextNode "loading"]].

(** The first root created on [page]: bound to its second child. *)
Definition pageRoot : Root := {| rootId := 0; container := [1] |}.

(** A page without a mount point. *)
Definition bare : Node :=
  ElementNode "body" None [ElementNode "div" (Some "app") []].

(** ** The shapes a record of [main] can take *)

Definition ok : Result unit := Returned tt.

Definition tree (App : Component) : Element := StrictMode [Use App].

Definition imported : list Event :=
  [EvImport "react" ok; EvImport "react-dom/client" ok;
   EvImport "./App.jsx" ok; EvImport "./assets/styles/GlobalStyle.scss" ok].

(** A run stops at the first call that throws, or goes through all seven. *)
Inductive Shape (App : Component) : list Event -> Result unit -> Prop :=
| stop_react e :
    Shape App [EvImport "react" (Threw e)] (Threw e)
| stop_react_dom e :
    Shape App [EvImport "react" ok; EvImport "react-dom/client" (Threw e)]
          (Threw e)
| stop_app e :
    Shape App [EvImport "react" ok; EvImport "react-dom/client" ok;
               EvImport "./App.jsx" (Threw e)] (Threw e)
| stop_stylesheet e :
    Shape App [EvImport "react" ok; EvImport "react-dom/client" ok;
               EvImport "./App.jsx" ok;
               EvImport "./assets/styles/GlobalStyle.scss" (Threw e)] (Threw e)
| stop_lookup e :
    Shape App (imported ++ [EvGetElementById "root" (Threw e)]) (Threw e)
| stop_create n e :
    Shape App (imported ++ [EvGetElementById "root" (Returned n);
                            EvCreateRoot n (Threw e)]) (Threw e)
| stop_render n r e :
    Shape App (imported ++ [EvGetElementById "root" (Returned n);
                            EvCreateRoot n (Returned r);
                            EvRender r (tree App) (Threw e)]) (Threw e)
| complete n r :
    Shape App (imported ++ [EvGetElementById "root" (Returned n);
                            EvCreateRoot n (Returned r);
                            EvRender r (tree App) ok]) ok.

(** An event is an answer of the environment in some state. *)
Definition answered {W : Type} (E : Env W) (e : Event) : Prop :=
  match e with
  | EvImport m r => exists w, fst (importModule E m w) = r
  | EvGetElementById i r => exists w, fst (getElementById E i w) = r
  | EvCreateRoot n r => exists w, fst (createRoot E n w) = r
  | EvRender h t r => exists w, fst (render E h t w) = r
  end.



(** ** What is asked of an environment *)

(** [createRoot] throws when handed no node. *)
Definition rejectsNull {W : Type} (E : Env W) : Prop :=
  forall w, exists e, fst (createRoot E None w) = Threw e.

(** [createRoot] returns a root when handed a node. *)
Definition acceptsNodes {W : Type} (E : Env W) : Prop :=
  forall el w, exists r, fst (createRoot E (Some el) w) = Returned r.

(** The root [createRoot] returns is bound to the node it was handed. *)
Definition bindsNode {W : Type} (E : Env W) : Prop :=
  forall el w r, fst (createRoot E (Some el) w) = Returned r -> container r = el.

(** Loading a module, looking a node up and creating a root leave the
    document, read off the state by [doc], as it is. *)
Definition quiet {W : Type} (doc : W -> Node) (E : Env W) : Prop :=
  (forall m w, doc (snd (importModule E m w)) = doc w) /\
  (forall i w, doc (snd (getElementById E i w)) = doc w) /\
  (forall n w, doc (snd (createRoot E n w)) = doc w).

(** [d] and [d'] have the same nodes, with the same labels, everywhere but
    at [p] and below. *)
Definition sameOutside (p : Path) (d d' : Node) : Prop :=
  forall q, ~ p `prefix_of` q -> label <$> nodeAt q d = label <$> nodeAt q d'.

(** A render writes only at and below the node its root is bound to. *)
Definition confined {W : Type} (doc : W -> Node) (E : Env W) : Prop :=
  forall r t w, sameOutside (container r) (doc w) (doc (snd (render E r t w))).

(** ** The module without the diagnostic wrapper *)

(** The spec compares the wrapped tree with "the same component tree
    rendered without the wrapper": the body with [<App />] alone. *)
Definition bodyUnwrapped (App : Component) : Prog unit :=
  (node <- GetElementById "root" ;;
   root <- CreateRoot node ;;
   Render root (Use App) ;;
   Done tt)%prog.

Definition mainUnwrapped (App : Component) : Prog unit :=
  (Import "react" ;;
   Import "react-dom/client" ;;
   Import "./App.jsx" ;;
   Import "./assets/styles/GlobalStyle.scss" ;;
   bodyUnwrapped App)%prog.

(** How the wrapped and the plain traversal of a tree compare: same markup,
    same hooks invoked, none of them fewer times. *)
Definition agrees (a b : list Node * list string) : Prop :=
  fst a = fst b /\
  (forall h, In h (snd a) <-> In h (snd b)) /\
  length (snd b) <= length (snd a).

(** The text under the node carrying identifier [i], if there is one. *)
Definition textUnder (i : string) (d : Node) : option string :=
  match findById i d with
  | Some p => textContent <$> nodeAt p d
  | None => None
  end.

(** A second state over the same page: other modules already loaded, other
    hooks already run. *)
Definition warm : Reference.World :=
  {| Reference.document := page; Reference.loaded := ["polyfill"];
     Reference.roots := []; Reference.invoked := ["useLayoutEffect"] |}.

(** ** Further readings of a record, and two more environments *)

(** The error a recorded call ended in, if it threw. *)
Definition thrown (e : Event) : option Error :=
  match e with
  | EvImport _ (Threw x) => Some x
  | EvGetElementById _ (Threw x) => Some x
  | EvCreateRoot _ (Threw x) => Some x
  | EvRender _ _ (Threw x) => Some x
  | _ => None
  end.

(** The module specifiers a record has, in the order they were imported. *)
Definition importsOf (t : list Event) : list string :=
  flat_map (fun e => match e with EvImport m _ => [m] | _ => [] end) t.

(** Lines 1 to 4: the specifiers the module imports, in source order. *)
Definition specifiers : list string :=
  ["react"; "react-dom/client"; "./App.jsx";
   "./assets/styles/GlobalStyle.scss"].

(** A framework that takes a missing node for the top of the document,
    where the reference one throws. *)
Definition lenient : Env Reference.World := {|
  importModule := importModule Reference.env;
  getElementById := getElementById Reference.env;
  createRoot n w := createRoot Reference.env (Some (default [] n)) w;
  render := render Reference.env
|}.

(** A loader in which the evaluation of the module [bad] throws. *)
Definition failingImport (bad : string) : Env Reference.World := {|
  importModule m w :=
    if String.eqb m bad
    then (Threw (JsError "Module evaluation failed."), w)
    else importModule Reference.env m w;
  getElementById := getElementById Reference.env;
  createRoot := createRoot Reference.env;
  render := render Reference.env
|}.

(** ** The script of the module *)

(** A call without what the environment put into it: the answer, and the
    arguments that carry an earlier answer (the node handed to [createRoot],
    the root handed to [render]). *)
Inductive Script : Type :=
| SImport (specifier : string)
| SLookup (id : string)
| SCreate
| SRender (tree : Element).

Definition scriptOf (e : Event) : Script :=
  match e with
  | EvImport m _ => SImport m
  | EvGetElementById i _ => SLookup i
  | EvCreateRoot _ _ => SCreate
  | EvRender _ x _ => SRender x
  end.

(** Lines 1 to 10, call by call. *)
Definition mainScript (App : Component) : list Script :=
  [SImport "react"; SImport "react-dom/client"; SImport "./App.jsx";
   SImport "./assets/styles/GlobalStyle.scss";
   SLookup "root"; SCreate; SRender (StrictMode [Use App])].

(** * Properties *)

(** ** Three runs on the reference environment *)

Example run_on_page :
  trace (run Reference.env (main helloApp) (Reference.start page))
    = imported ++ [EvGetElementById "root" (Returned (Some [1]));
                   EvCreateRoot (Some [1]) (Returned pageRoot);
                   EvRender pageRoot (tree helloApp) ok] /\
  outcome (run Reference.env (main helloApp) (Reference.start page)) = ok /\
  Reference.document
    (final (run Reference.env (main helloApp) (Reference.start page)))
    = ElementNode "body" None
        [ElementNode "h1" None [TextNode "CleanPro"];
         ElementNode "div" (Some "root") [TextNode "Hello"]].
Proof. repeat split. Qed.

Example run_on_bare :
  trace (run Reference.env (main helloApp) (Reference.start bare))
    = imported ++ [EvGetElementById "root" (Returned None);
                   EvCreateRoot None (Threw Reference.notAnElement)] /\
  outcome (run Reference.env (main helloApp) (Reference.start bare))
    = Threw Reference.notAnElement /\
  Reference.document
    (final (run Reference.env (main helloApp) (Reference.start bare))) = bare.
Proof. repeat split. Qed.

Example run_on_rootDiv :
  Reference.document
    (final (run Reference.env (main helloApp) (Reference.start rootDiv)))
    = ElementNode "div" (Some "root") [TextNode "Hello"] /\
  Reference.invoked
    (final (run Reference.env (main helloApp) (Reference.start rootDiv)))
    = ["useEffect"; "useEffect"].
Proof. repeat split. Qed.

(** ** Every run of [main] has one of the eight shapes *)

Section Shapes.
Context {W : Type} (E : Env W) (App : Component).

Lemma main_shape (w : W) :
  Shape App (trace (run E (main App) w)) (outcome (run E (main App) w)).
Proof.
  unfold main, body. cbn [run handle event].
  repeat match goal with
  | |- context [match ?h with _ => _ end] =>
      destruct h as [[?|?] ?]; cbn [trace outcome final]
  end.
  all: repeat match goal with u : unit |- _ => destruct u end.
  all: constructor.
Qed.

Lemma run_answered {A : Type} (p : Prog A) (w : W) :
  Forall (answered E) (trace (run E p w)).
Proof.
  revert w. induction p as [a | X c k IH]; intros w; cbn [run trace].
  - constructor.
  - destruct (handle E c w) as [[x | e] w'] eqn:Hc; cbn [trace].
    + constructor; [| apply IH].
      destruct c; cbn in *; exists w; now rewrite Hc.
    + constructor; [| constructor].
      destruct c; cbn in *; exists w; now rewrite Hc.
Qed.

Lemma run_answers {A : Type} (p : Prog A) (w : W) (e : Event) :
  In e (trace (run E p w)) -> answered E e.
Proof.
  intros He. pose proof (run_answered p w) as H.
  rewrite List.Forall_forall in H. now apply H.
Qed.

End Shapes.

(** Case analysis on the shape of the run in the goal. *)
Ltac by_shape E App w :=
  let S := fresh "S" in
  let A := fresh "A" in
  pose proof (main_shape E App w) as S;
  pose proof (run_answers E (main App) w) as A;
  destruct S; cbn [app imported] in *.

Lemma Reference_acceptsNodes : acceptsNodes Reference.env.
Proof. intros el w. eexists. reflexivity. Qed.

Lemma Reference_rejectsNull : rejectsNull Reference.env.
Proof. intros w. eexists. reflexivity. Qed.

Lemma Reference_bindsNode : bindsNode Reference.env.
Proof. intros el w r H. cbn in H. injection H as <-. reflexivity. Qed.

Lemma Reference_quiet : quiet Reference.document Reference.env.
Proof.
  repeat split; intros; try reflexivity.
  destruct n; reflexivity.
Qed.

(** C1: in a run whose lookup of "root" resolves to a node, on a framework
    that accepts nodes, exactly one root is created, on that node, and
    exactly one render is requested, of the module's tree on that root. *)
Theorem one_root_one_render {W : Type} (E : Env W) (App : Component)
    (w : W) (el : Path) :
  acceptsNodes E ->
  resolved (trace (run E (main App) w)) = [Some el] ->
  exists r,
    creations (trace (run E (main App) w)) = [Some el] /\
    created (trace (run E (main App) w)) = [r] /\
    renders (trace (run E (main App) w)) = [(r, tree App)].
Proof.
  intros Hacc. by_shape E App w; intros Hres; try discriminate.
  - injection Hres as ->.
    destruct (A (EvCreateRoot (Some el) (Threw e))) as [s Hs]; [cbn; tauto |].
    destruct (Hacc el s) as [r Hr]. congruence.
  - injection Hres as ->. exists r. auto.
  - injection Hres as ->. exists r. auto.
Qed.

Lemma one_root_one_render_witness :
  acceptsNodes Reference.env /\
  resolved (trace (run Reference.env (main helloApp) (Reference.start page)))
    = [Some [1]] /\
  exists r,
    creations (trace (run Reference.env (main helloApp) (Reference.start page)))
      = [Some [1]] /\
    created (trace (run Reference.env (main helloApp) (Reference.start page)))
      = [r] /\
    renders (trace (run Reference.env (main helloApp) (Reference.start page)))
      = [(r, tree helloApp)].
Proof.
  split; [exact Reference_acceptsNodes |].
  split; [reflexivity |].
  apply (one_root_one_render Reference.env helloApp (Reference.start page) [1]).
  - exact Reference_acceptsNodes.
  - reflexivity.
Defined.

(** C2: in a run whose lookup of "root" finds nothing, on a framework that
    rejects a missing node, the error [createRoot] throws is the outcome of
    the run: it is the last thing recorded, [createRoot] was tried once and
    the lookup was not repeated. *)
Theorem missing_root_uncaught {W : Type} (E : Env W) (App : Component)
    (w : W) :
  rejectsNull E ->
  resolved (trace (run E (main App) w)) = [None] ->
  exists e,
    outcome (run E (main App) w) = Threw e /\
    last (trace (run E (main App) w)) = Some (EvCreateRoot None (Threw e)) /\
    creations (trace (run E (main App) w)) = [None] /\
    lookups (trace (run E (main App) w)) = ["root"].
Proof.
  intros Hrej. by_shape E App w; intros Hres; try discriminate.
  - injection Hres as ->. exists e. auto.
  - injection Hres as ->.
    destruct (A (EvCreateRoot None (Returned r))) as [s Hs]; [cbn; tauto |].
    destruct (Hrej s) as [e' He']. congruence.
  - injection Hres as ->.
    destruct (A (EvCreateRoot None (Returned r))) as [s Hs]; [cbn; tauto |].
    destruct (Hrej s) as [e' He']. congruence.
Qed.

Lemma missing_root_uncaught_witness :
  rejectsNull Reference.env /\
  resolved (trace (run Reference.env (main helloApp) (Reference.start bare)))
    = [None] /\
  exists e,
    outcome (run Reference.env (main helloApp) (Reference.start bare))
      = Threw e /\
    last (trace (run Reference.env (main helloApp) (Reference.start bare)))
      = Some (EvCreateRoot None (Threw e)) /\
    creations (trace (run Reference.env (main helloApp) (Reference.start bare)))
      = [None] /\
    lookups (trace (run Reference.env (main helloApp) (Reference.start bare)))
      = ["root"].
Proof.
  split; [exact Reference_rejectsNull |].
  split; [reflexivity |].
  apply (missing_root_uncaught Reference.env helloApp (Reference.start bare)).
  - exact Reference_rejectsNull.
  - reflexivity.
Defined.

(** C3: the only identifier ever looked up is "root", it is looked up at most
    once, and unless an import threw it is looked up; the nodes handed to
    [createRoot] are exactly what the lookup returned, a missing node
    included: nothing is substituted for it and nothing else is called. *)
Theorem mount_point_by_fixed_id {W : Type} (E : Env W) (App : Component)
    (w : W) :
  lookups (trace (run E (main App) w)) `prefix_of` ["root"] /\
  creations (trace (run E (main App) w))
    = resolved (trace (run E (main App) w)) /\
  (lookups (trace (run E (main App) w)) = ["root"] \/
   exists m e, last (trace (run E (main App) w)) = Some (EvImport m (Threw e))).
Proof.
  by_shape E App w.
  1-4: split; [apply prefix_nil | split; [reflexivity | right; eauto]].
  all: split; [reflexivity | split; [reflexivity | left; reflexivity]].
Qed.

(** C5: the three steps of the body are recorded in the order resolve,
    create, request, each at most once and none before its predecessor; no
    import is recorded after the body has begun; a run that returns has
    recorded all three. *)
Theorem steps_in_order {W : Type} (E : Env W) (App : Component) (w : W) :
  steps (trace (run E (main App) w)) `prefix_of` [Resolve; Create; Request] /\
  trace (run E (main App) w)
    = filter (fun e => isBodyCall e = false) (trace (run E (main App) w))
      ++ filter (fun e => isBodyCall e = true) (trace (run E (main App) w)) /\
  (outcome (run E (main App) w) = ok ->
   steps (trace (run E (main App) w)) = [Resolve; Create; Request]).
Proof.
  by_shape E App w.
  1-4: split; [apply prefix_nil | split; [reflexivity | discriminate]].
  - split; [by exists [Create; Request] | split; [reflexivity | discriminate]].
  - split; [by exists [Request] | split; [reflexivity | discriminate]].
  - split; [reflexivity | split; [reflexivity | discriminate]].
  - split; [reflexivity | split; [reflexivity | reflexivity]].
Qed.

(** Peel a concrete record off a split [pre ++ e :: post]. *)
Ltac peel H :=
  repeat match type of H with
  | _ = ?pre ++ _ :: _ =>
      destruct pre as [| ? pre]; cbn [app] in H;
      [ injection H as <- ? | injection H as <- H ]
  | [] = ?pre ++ _ :: _ => destruct pre; discriminate H
  end.

(** By the time any call of the body is recorded, the four imports have
    returned. *)
Lemma imports_before_body {W : Type} (E : Env W) (App : Component) (w : W)
    (pre post : list Event) (e : Event) :
  trace (run E (main App) w) = pre ++ e :: post ->
  isBodyCall e = true ->
  exists rest, pre = imported ++ rest.
Proof.
  by_shape E App w; intros H Hb.
  all: destruct pre as [| e1 pre]; cbn [app] in H;
       [injection H as <- ?; discriminate Hb | injection H as <- H].
  all: try (destruct pre; discriminate H).
  all: destruct pre as [| e2 pre]; cbn [app] in H;
       [injection H as <- ?; discriminate Hb | injection H as <- H].
  all: try (destruct pre; discriminate H).
  all: destruct pre as [| e3 pre]; cbn [app] in H;
       [injection H as <- ?; discriminate Hb | injection H as <- H].
  all: try (destruct pre; discriminate H).
  all: destruct pre as [| e4 pre]; cbn [app] in H;
       [injection H as <- ?; discriminate Hb | injection H as <- H].
  all: try (destruct pre; discriminate H).
  all: by exists pre.
Qed.

(** C7: whenever a render request is recorded, the import of the global
    stylesheet has been recorded before it, and had returned: the load is
    started while the module's imports are evaluated, ahead of the body. *)
Theorem stylesheet_before_render {W : Type} (E : Env W) (App : Component)
    (w : W) (pre post : list Event) (e : Event) :
  trace (run E (main App) w) = pre ++ e :: post ->
  isRender e = true ->
  In (EvImport stylesheet ok) pre /\
  Forall (fun x => isRender x = false) pre.
Proof.
  intros H Hr.
  assert (Hb : isBodyCall e = true) by (destruct e; done).
  destruct (imports_before_body E App w pre post e H Hb) as [rest ->].
  split; [cbn; unfold stylesheet; tauto |].
  revert H. by_shape E App w; intros H; try discriminate H.
  all: injection H as H; peel H; try discriminate Hr.
  all: repeat constructor.
Qed.

Lemma stylesheet_before_render_witness :
  trace (run Reference.env (main helloApp) (Reference.start page))
    = (imported ++ [EvGetElementById "root" (Returned (Some [1]));
                    EvCreateRoot (Some [1]) (Returned pageRoot)])
      ++ EvRender pageRoot (tree helloApp) ok :: [] /\
  isRender (EvRender pageRoot (tree helloApp) ok) = true /\
  In (EvImport stylesheet ok)
     (imported ++ [EvGetElementById "root" (Returned (Some [1]));
                   EvCreateRoot (Some [1]) (Returned pageRoot)]) /\
  Forall (fun x => isRender x = false)
     (imported ++ [EvGetElementById "root" (Returned (Some [1]));
                   EvCreateRoot (Some [1]) (Returned pageRoot)]).
Proof.
  split; [reflexivity |].
  split; [reflexivity |].
  apply (stylesheet_before_render Reference.env helloApp (Reference.start page)
           _ [] (EvRender pageRoot (tree helloApp) ok)).
  - reflexivity.
  - reflexivity.
Defined.


Example two_states_one_record :
  trace (run Reference.env (main helloApp) (Reference.start page))
    = trace (run Reference.env (main helloApp) warm) /\
  map scriptOf (trace (run Reference.env (main helloApp) (Reference.start bare)))
    = take 6 (mainScript helloApp).
Proof. split; reflexivity. Qed.

(** ** What a run does to the document *)

(** On a quiet environment the document a run leaves is the one it found,
    unless a render was requested; then it is what that one render made of
    the document it found. *)
Lemma main_final_doc {W : Type} (E : Env W) (doc : W -> Node)
    (App : Component) (w : W) :
  quiet doc E ->
  (renders (trace (run E (main App) w)) = [] /\
   doc (final (run E (main App) w)) = doc w) \/
  (exists r s,
     renders (trace (run E (main App) w)) = [(r, tree App)] /\
     doc s = doc w /\
     doc (final (run E (main App) w)) = doc (snd (render E r (tree App) s))).
Proof.
  intros (Himp & Hget & Hnew).
  unfold main, body. cbn [run handle event].
  destruct (importModule E "react" w) as [[[]|?] w1] eqn:H1;
    pose proof (Himp "react" w) as F1; rewrite H1 in F1; cbn in F1;
    [| left; split; [reflexivity | exact F1]].
  destruct (importModule E "react-dom/client" w1) as [[[]|?] w2] eqn:H2;
    pose proof (Himp "react-dom/client" w1) as F2; rewrite H2 in F2; cbn in F2;
    [| left; split; [reflexivity | cbn; congruence]].
  destruct (importModule E "./App.jsx" w2) as [[[]|?] w3] eqn:H3;
    pose proof (Himp "./App.jsx" w2) as F3; rewrite H3 in F3; cbn in F3;
    [| left; split; [reflexivity | cbn; congruence]].
  destruct (importModule E "./assets/styles/GlobalStyle.scss" w3)
    as [[[]|?] w4] eqn:H4;
    pose proof (Himp "./assets/styles/GlobalStyle.scss" w3) as F4;
    rewrite H4 in F4; cbn in F4;
    [| left; split; [reflexivity | cbn; congruence]].
  destruct (getElementById E "root" w4) as [[n|?] w5] eqn:H5;
    pose proof (Hget "root" w4) as F5; rewrite H5 in F5; cbn in F5;
    [| left; split; [reflexivity | cbn; congruence]].
  destruct (createRoot E n w5) as [[r|?] w6] eqn:H6;
    pose proof (Hnew n w5) as F6; rewrite H6 in F6; cbn in F6;
    [| left; split; [reflexivity | cbn; congruence]].
  right. exists r, w6. split; [| split; [congruence |]].
  - destruct (render E r (StrictMode [Use App]) w6) as [[[]|?] ?]; reflexivity.
  - unfold tree.
    destruct (render E r (StrictMode [Use App]) w6) as [[[]|?] ?]; reflexivity.
Qed.

(** The one record a run can leave when the lookup finds nothing and the
    framework rejects a missing node. *)
Lemma missing_root_shape {W : Type} (E : Env W) (App : Component) (w : W) :
  rejectsNull E ->
  resolved (trace (run E (main App) w)) = [None] ->
  exists e,
    trace (run E (main App) w)
      = imported ++ [EvGetElementById "root" (Returned None);
                     EvCreateRoot None (Threw e)] /\
    outcome (run E (main App) w) = Threw e.
Proof.
  intros Hrej. by_shape E App w; intros Hres; try discriminate.
  - injection Hres as ->. exists e. auto.
  - injection Hres as ->.
    destruct (A (EvCreateRoot None (Returned r))) as [s Hs]; [cbn; tauto |].
    destruct (Hrej s) as [e' He']. congruence.
  - injection Hres as ->.
    destruct (A (EvCreateRoot None (Returned r))) as [s Hs]; [cbn; tauto |].
    destruct (Hrej s) as [e' He']. congruence.
Qed.

(** C8: in a run whose lookup of "root" finds nothing, on a framework that
    rejects a missing node and a quiet environment, the record ends at
    [createRoot]: no render is requested, the run ends in an error, and the
    document is the one the run found. *)
Theorem missing_root_atomic {W : Type} (E : Env W) (doc : W -> Node)
    (App : Component) (w : W) :
  rejectsNull E ->
  quiet doc E ->
  resolved (trace (run E (main App) w)) = [None] ->
  renders (trace (run E (main App) w)) = [] /\
  steps (trace (run E (main App) w)) = [Resolve; Create] /\
  (exists e, outcome (run E (main App) w) = Threw e) /\
  doc (final (run E (main App) w)) = doc w.
Proof.
  intros Hrej Hq Hres.
  destruct (missing_root_shape E App w Hrej Hres) as (e & Ht & Ho).
  split; [now rewrite Ht |].
  split; [now rewrite Ht |].
  split; [now exists e |].
  destruct (main_final_doc E doc App w Hq) as [[_ Hd] | (r & s & Hr & _)].
  - exact Hd.
  - rewrite Ht in Hr. discriminate Hr.
Qed.

Lemma missing_root_atomic_witness :
  rejectsNull Reference.env /\
  quiet Reference.document Reference.env /\
  resolved (trace (run Reference.env (main helloApp) (Reference.start bare)))
    = [None] /\
  renders (trace (run Reference.env (main helloApp) (Reference.start bare)))
    = [] /\
  steps (trace (run Reference.env (main helloApp) (Reference.start bare)))
    = [Resolve; Create] /\
  (exists e, outcome (run Reference.env (main helloApp) (Reference.start bare))
             = Threw e) /\
  Reference.document
    (final (run Reference.env (main helloApp) (Reference.start bare)))
    = Reference.document (Reference.start bare).
Proof.
  split; [exact Reference_rejectsNull |].
  split; [exact Reference_quiet |].
  split; [reflexivity |].
  apply (missing_root_atomic Reference.env Reference.document helloApp
           (Reference.start bare)).
  - exact Reference_rejectsNull.
  - exact Reference_quiet.
  - reflexivity.
Defined.

(** ** The document outside a node *)

Lemma sameOutside_refl (p : Path) (d : Node) : sameOutside p d d.
Proof. intros q _. reflexivity. Qed.

Lemma replaceChildren_outside (p : Path) (new : list Node) (d : Node) :
  sameOutside p d (replaceChildren p new d).
Proof.
  revert d. induction p as [| k p IH]; intros d q Hq.
  - exfalso. apply Hq. apply prefix_nil.
  - destruct d as [s | t i kids]; [reflexivity |].
    cbn [replaceChildren].
    destruct (kids !! k) as [c |] eqn:Hk; [| reflexivity].
    destruct q as [| j q]; cbn [nodeAt childrenOf].
    + cbn. now rewrite length_insert.
    + destruct (decide (j = k)) as [-> | Hne].
      * rewrite list_lookup_insert_eq by (eapply lookup_lt_Some; eassumption).
        rewrite Hk. apply IH. intros Hp. apply Hq. now apply prefix_cons.
      * rewrite list_lookup_insert_ne by congruence. reflexivity.
Qed.

Lemma Reference_confined : confined Reference.document Reference.env.
Proof. intros r t w. cbn. apply replaceChildren_outside. Qed.

(** C10: in a run whose lookup of "root" resolves to a node, on a quiet
    environment whose framework binds a root to the node it is handed and
    whose renders write only at and below that node, every node of the
    document outside the subtree of the resolved node is there after the run
    as it was before, with the same label. *)
Theorem writes_only_under_root {W : Type} (E : Env W) (doc : W -> Node)
    (App : Component) (w : W) (el : Path) :
  quiet doc E ->
  bindsNode E ->
  confined doc E ->
  resolved (trace (run E (main App) w)) = [Some el] ->
  sameOutside el (doc w) (doc (final (run E (main App) w))).
Proof.
  intros Hq Hb Hc Hres.
  destruct (main_final_doc E doc App w Hq) as [[_ Hd] | (r & s & Hr & Hs & Hf)].
  - rewrite Hd. apply sameOutside_refl.
  - rewrite Hf, <- Hs.
    assert (container r = el) as <-; [| apply Hc].
    revert Hres Hr. by_shape E App w; intros Hres Hr; try discriminate.
    + injection Hres as ->. injection Hr as ->.
      destruct (A (EvCreateRoot (Some el) (Returned r))) as [s' Hs'];
        [cbn; tauto |].
      eapply Hb; eassumption.
    + injection Hres as ->. injection Hr as ->.
      destruct (A (EvCreateRoot (Some el) (Returned r))) as [s' Hs'];
        [cbn; tauto |].
      eapply Hb; eassumption.
Qed.

Lemma writes_only_under_root_witness :
  quiet Reference.document Reference.env /\
  bindsNode Reference.env /\
  confined Reference.document Reference.env /\
  resolved (trace (run Reference.env (main helloApp) (Reference.start page)))
    = [Some [1]] /\
  sameOutside [1]
    (Reference.document (Reference.start page))
    (Reference.document
       (final (run Reference.env (main helloApp) (Reference.start page)))).
Proof.
  split; [exact Reference_quiet |].
  split; [exact Reference_bindsNode |].
  split; [exact Reference_confined |].
  split; [reflexivity |].
  apply (writes_only_under_root Reference.env Reference.document helloApp
           (Reference.start page) [1]).
  - exact Reference_quiet.
  - exact Reference_bindsNode.
  - exact Reference_confined.
  - reflexivity.
Defined.

Example sameOutside_sees_a_change :
  ~ sameOutside [1] page
      (ElementNode "body" None
         [ElementNode "h1" None [TextNode "Other"];
          ElementNode "div" (Some "root") [TextNode "loading"]]).
Proof.
  intros H.
  assert (Hout : ~ [1] `prefix_of` [0; 0]) by (intros [k Hk]; discriminate Hk).
  specialize (H [0; 0] Hout). discriminate H.
Qed.

(** ** The reference renderer *)

Lemma Element_nested_ind (P : Element -> Prop) :
  (forall s, P (Text s)) ->
  (forall tag i kids, Forall P kids -> P (Host tag i kids)) ->
  (forall kids, Forall P kids -> P (StrictMode kids)) ->
  (forall c, P (Use c)) ->
  forall t, P t.
Proof.
  intros HT HH HS HU. fix IH 1. intros [s | tag i kids | kids | c].
  - apply HT.
  - apply HH. revert kids. fix IHk 1. intros [| x l]; constructor.
    + apply IH.
    + apply IHk.
  - apply HS. revert kids. fix IHk 1. intros [| x l]; constructor.
    + apply IH.
    + apply IHk.
  - apply HU.
Qed.

Section Renderer.
Import Reference.

Lemma collect_cons (f : Element -> list Node * list string) (x : Element)
    (l : list Element) :
  collect f (x :: l)
    = (fst (f x) ++ fst (collect f l), snd (f x) ++ snd (collect f l)).
Proof. reflexivity. Qed.

Lemma collect_agrees (f g : Element -> list Node * list string)
    (l : list Element) :
  Forall (fun t => agrees (f t) (g t)) l -> agrees (collect f l) (collect g l).
Proof.
  induction 1 as [| t l (Hm & Hh & Hl) _ (IHm & IHh & IHl)].
  - repeat split; auto.
  - rewrite !collect_cons. repeat split; cbn [fst snd].
    + now rewrite Hm, IHm.
    + rewrite !in_app_iff, Hh, IHh. tauto.
    + rewrite !in_app_iff, Hh, IHh. tauto.
    + rewrite !length_app. lia.
Qed.

Lemma renderTree_strict_agrees (t : Element) :
  agrees (renderTree true t) (renderTree false t).
Proof.
  induction t as [s | tag i kids IH | kids IH | c] using Element_nested_ind;
    cbn [renderTree].
  - repeat split; auto.
  - destruct (collect_agrees _ _ kids IH) as (Hm & Hh & Hl).
    repeat split; cbn; try apply Hh; [now rewrite Hm | exact Hl].
  - repeat split; auto.
  - repeat split; cbn.
    + rewrite in_app_iff. tauto.
    + intros H. rewrite in_app_iff. tauto.
    + rewrite length_app. lia.
Qed.

Lemma wrapped_agrees (t : Element) :
  agrees (renderTree false (StrictMode [t])) (renderTree false t).
Proof.
  destruct (renderTree_strict_agrees t) as (Hm & Hh & Hl).
  cbn [renderTree collect fold_right fst snd].
  rewrite !app_nil_r. repeat split; auto; apply Hh.
Qed.

End Renderer.

(** C4: (spec-modelled renderer) rendering a tree under the diagnostic
    wrapper into a root leaves the same document as rendering the tree
    itself; the same hooks are invoked, none fewer times and possibly more.
    In particular the module and the module without the wrapper leave the
    same document and end alike. *)
Theorem strict_mode_same_output (App : Component) (r : Root) (t : Element)
    (w : Reference.World) :
  Reference.document (snd (render Reference.env r (StrictMode [t]) w))
    = Reference.document (snd (render Reference.env r t w)) /\
  (forall h,
     In h (Reference.invoked (snd (render Reference.env r (StrictMode [t]) w)))
     <-> In h (Reference.invoked (snd (render Reference.env r t w)))) /\
  length (Reference.invoked (snd (render Reference.env r t w)))
    <= length (Reference.invoked
                 (snd (render Reference.env r (StrictMode [t]) w))) /\
  Reference.document (final (run Reference.env (main App) w))
    = Reference.document (final (run Reference.env (mainUnwrapped App) w)) /\
  outcome (run Reference.env (main App) w)
    = outcome (run Reference.env (mainUnwrapped App) w).
Proof.
  destruct (wrapped_agrees t) as (Hm & Hh & Hl).
  cbn [render Reference.env snd Reference.document Reference.invoked].
  unfold Reference.markup, Reference.hookCalls.
  split; [now rewrite Hm |].
  split; [intros h; rewrite !in_app_iff, Hh; tauto |].
  split; [rewrite !length_app; lia |].
  unfold main, mainUnwrapped, body, bodyUnwrapped.
  cbn [run handle event importModule getElementById Reference.env
       Reference.document trace outcome final].
  destruct (findById "root" (Reference.document w)) as [p |];
    cbn; [rewrite app_nil_r |]; split; reflexivity.
Qed.

Example strict_mode_repeats_hooks :
  Reference.invoked
    (snd (render Reference.env {| rootId := 0; container := [] |}
            (StrictMode [Use helloApp]) (Reference.start rootDiv)))
    = ["useEffect"; "useEffect"] /\
  Reference.invoked
    (snd (render Reference.env {| rootId := 0; container := [] |}
            (Use helloApp) (Reference.start rootDiv)))
    = ["useEffect"].
Proof. split; reflexivity. Qed.

(** ** Looking a node up, and writing under it *)

Lemma Node_nested_ind (P : Node -> Prop) :
  (forall s, P (TextNode s)) ->
  (forall t i kids, Forall P kids -> P (ElementNode t i kids)) ->
  forall n, P n.
Proof.
  intros HT HE. fix IH 1. intros [s | t i kids].
  - apply HT.
  - apply HE. revert kids. fix IHk 1. intros [| x l]; constructor.
    + apply IH.
    + apply IHk.
Qed.

Lemma scanChildren_Some (find : Node -> option Path) (k : nat)
    (l : list Node) (p : Path) :
  scanChildren find k l = Some p ->
  exists j c q, p = (k + j) :: q /\ l !! j = Some c /\ find c = Some q.
Proof.
  revert k. induction l as [| c l IH]; intros k; cbn [scanChildren].
  - discriminate.
  - destruct (find c) as [q |] eqn:Hf.
    + intros [= <-]. exists 0, c, q. rewrite Nat.add_0_r. auto.
    + intros H. apply IH in H as (j & c' & q & -> & Hl & Hq).
      exists (S j), c', q. split; [f_equal; lia | auto].
Qed.

(** The lookup returns the path of an element that carries the identifier. *)
Lemma findById_sound (i : string) (n : Node) (p : Path) :
  findById i n = Some p ->
  exists t kids, nodeAt p n = Some (ElementNode t (Some i) kids).
Proof.
  revert p. induction n as [s | t o kids IH] using Node_nested_ind;
    intros p; cbn [findById].
  - cbn. discriminate.
  - destruct (hasId i (ElementNode t o kids)) eqn:Hid.
    + intros [= <-]. cbn in Hid. destruct o as [j |]; [| discriminate].
      apply String.eqb_eq in Hid as ->. cbn. eauto.
    + intros H. apply scanChildren_Some in H as (j & c & q & -> & Hl & Hq).
      cbn [nodeAt childrenOf Nat.add]. rewrite Hl.
      rewrite Forall_lookup in IH. exact (IH j c Hl q Hq).
Qed.

Lemma nodeAt_replaceChildren (p : Path) (new : list Node) (d : Node)
    (t : string) (i : option string) (kids : list Node) :
  nodeAt p d = Some (ElementNode t i kids) ->
  nodeAt p (replaceChildren p new d) = Some (ElementNode t i new).
Proof.
  revert d. induction p as [| k p IH]; intros d.
  - cbn. intros [= ->]. reflexivity.
  - destruct d as [s | t0 i0 kids0]; cbn [nodeAt childrenOf replaceChildren].
    + rewrite lookup_nil. discriminate.
    + destruct (kids0 !! k) as [c |] eqn:Hk; [| discriminate].
      intros H. cbn [nodeAt childrenOf].
      rewrite list_lookup_insert_eq by (eapply lookup_lt_Some; eassumption).
      now apply IH.
Qed.

(** On the reference environment, a document with a "root" element is left
    with the component's markup as the children of that element. *)
Lemma main_fills_mount_point (d : Node) (App : Component) (p : Path) :
  findById "root" d = Some p ->
  outcome (run Reference.env (main App) (Reference.start d)) = ok /\
  exists t kids,
    nodeAt p d = Some (ElementNode t (Some "root") kids) /\
    nodeAt p (Reference.document
                (final (run Reference.env (main App) (Reference.start d))))
      = Some (ElementNode t (Some "root") (output App)).
Proof.
  intros Hp. unfold main, body.
  cbn [run handle event importModule getElementById Reference.env
       Reference.document Reference.start trace outcome final].
  rewrite Hp. cbn. split; [reflexivity |].
  destruct (findById_sound "root" d p Hp) as (t & kids & Hn).
  exists t, kids. split; [exact Hn |].
  rewrite app_nil_r. now apply nodeAt_replaceChildren with kids.
Qed.

(** C6: (spec-modelled renderer) with the host document [<div id="root">]
    and an application component that renders the literal text "Hello", the
    module returns and the text content of the "root" node is "Hello". *)
Theorem hello_rendered (name : string) (hs : list string) :
  let App := {| displayName := name; hooks := hs;
                output := [TextNode "Hello"] |} in
  outcome (run Reference.env (main App) (Reference.start rootDiv)) = ok /\
  textUnder "root"
    (Reference.document
       (final (run Reference.env (main App) (Reference.start rootDiv))))
    = Some "Hello".
Proof.
  intros App. split; reflexivity.
Qed.

(** * Further properties of the module *)

(** ** Failure: the first throw ends the run *)

(** X1: every recorded call but the last returned; the outcome of the run is
    the error of the last recorded call if that call threw, and a normal
    return otherwise; and a run whose last call returned has recorded all
    seven calls.  So whichever call fails, nothing is called after it and
    its error is handed on as it is. *)
Theorem stops_at_first_throw {W : Type} (E : Env W) (App : Component)
    (w : W) :
  Forall (fun ev => thrown ev = None)
         (removelast (trace (run E (main App) w))) /\
  outcome (run E (main App) w)
    = match last (trace (run E (main App) w)) ≫= thrown with
      | Some e => Threw e
      | None => ok
      end /\
  ((last (trace (run E (main App) w)) ≫= thrown) = None ->
   length (trace (run E (main App) w)) = 7).
Proof.
  by_shape E App w; cbn; repeat split; try discriminate;
    repeat constructor.
Qed.

(** ** Imports *)

(** X2: the specifiers recorded are a beginning of the four of lines 1 to 4,
    in source order; the body has not begun unless the record starts with
    all four imports, returned; and an import that threw is the last thing
    recorded, with its error as the outcome of the run.  A module whose
    evaluation throws therefore stops the imports after it and the whole
    body. *)
Theorem imports_in_source_order {W : Type} (E : Env W) (App : Component)
    (w : W) :
  importsOf (trace (run E (main App) w)) `prefix_of` specifiers /\
  (steps (trace (run E (main App) w)) = [] \/
   take 4 (trace (run E (main App) w)) = imported) /\
  (forall m e,
     In (EvImport m (Threw e)) (trace (run E (main App) w)) ->
     last (trace (run E (main App) w)) = Some (EvImport m (Threw e)) /\
     steps (trace (run E (main App) w)) = [] /\
     outcome (run E (main App) w) = Threw e).
Proof.
  by_shape E App w; cbn; (split; [| split]).
  - by exists (drop 1 specifiers).
  - by left.
  - intros m x [[= <- <-] | []]. auto.
  - by exists (drop 2 specifiers).
  - by left.
  - intros m x [[=] | [[= <- <-] | []]]. auto.
  - by exists (drop 3 specifiers).
  - by left.
  - intros m x [[=] | [[=] | [[= <- <-] | []]]]. auto.
  - by exists [].
  - by left.
  - intros m x [[=] | [[=] | [[=] | [[= <- <-] | []]]]]. auto.
  - by exists [].
  - by right.
  - intros m x H. repeat (destruct H as [[=] | H]). destruct H.
  - by exists [].
  - by right.
  - intros m x H. repeat (destruct H as [[=] | H]). destruct H.
  - by exists [].
  - by right.
  - intros m x H. repeat (destruct H as [[=] | H]). destruct H.
  - by exists [].
  - by right.
  - intros m x H. repeat (destruct H as [[=] | H]). destruct H.
Qed.

(** ** From lookup to root to render *)

(** What the lookup returned is what [createRoot] is handed. *)
Lemma creations_resolved {W : Type} (E : Env W) (App : Component) (w : W) :
  creations (trace (run E (main App) w))
    = resolved (trace (run E (main App) w)).
Proof. by_shape E App w; reflexivity. Qed.

(** X3: the render requests of a run are exactly one per root that
    [createRoot] returned, on that root and with the module's tree
    [<StrictMode><App /></StrictMode>]; at most one root is returned.  No
    render is ever requested on a root the run did not create, and no root
    it created is left without its render request. *)
Theorem render_on_created_root {W : Type} (E : Env W) (App : Component)
    (w : W) :
  renders (trace (run E (main App) w))
    = map (fun r => (r, StrictMode [Use App]))
          (created (trace (run E (main App) w))) /\
  length (created (trace (run E (main App) w))) <= 1.
Proof.
  by_shape E App w; cbn; split; (reflexivity || lia).
Qed.

(** X4: the module has no check of its own for a missing node.  In a run
    whose lookup finds nothing, [createRoot] is called all the same, once,
    with the missing node; and a render is requested on whatever root the
    framework returns for it, like on any other. *)
Theorem no_guard_of_its_own {W : Type} (E : Env W) (App : Component)
    (w : W) :
  resolved (trace (run E (main App) w)) = [None] ->
  creations (trace (run E (main App) w)) = [None] /\
  renders (trace (run E (main App) w))
    = map (fun r => (r, StrictMode [Use App]))
          (created (trace (run E (main App) w))).
Proof.
  intros Hres. split.
  - now rewrite creations_resolved.
  - by_shape E App w; reflexivity.
Qed.

Lemma no_guard_of_its_own_witness :
  resolved (trace (run lenient (main helloApp) (Reference.start bare)))
    = [None] /\
  creations (trace (run lenient (main helloApp) (Reference.start bare)))
    = [None] /\
  renders (trace (run lenient (main helloApp) (Reference.start bare)))
    = map (fun r => (r, StrictMode [Use helloApp]))
          (created (trace (run lenient (main helloApp)
                             (Reference.start bare)))).
Proof.
  split; [reflexivity |].
  apply (no_guard_of_its_own lenient helloApp (Reference.start bare)).
  reflexivity.
Defined.

Example missing_node_on_two_frameworks :
  renders (trace (run lenient (main helloApp) (Reference.start bare)))
    = [({| rootId := 0; container := [] |}, StrictMode [Use helloApp])] /\
  creations (trace (run Reference.env (main helloApp) (Reference.start bare)))
    = [None] /\
  renders (trace (run Reference.env (main helloApp) (Reference.start bare)))
    = [].
Proof. repeat split. Qed.

(** ** Running the module again *)

(** X5: the module keeps nothing between runs that would stop a second
    mount.  When it is run again in the state its first run left, and the
    lookup resolves to the same node both times, [createRoot] is called on
    that node a second time. *)
Theorem second_run_second_root {W : Type} (E : Env W) (App : Component)
    (w : W) (el : Path) :
  resolved (trace (run E (main App) w)) = [Some el] ->
  resolved (trace (run E (main App) (final (run E (main App) w))))
    = [Some el] ->
  creations (trace (run E (main App) w)
             ++ trace (run E (main App) (final (run E (main App) w))))
    = [Some el; Some el].
Proof.
  intros H1 H2. unfold creations. rewrite flat_map_app. fold creations.
  rewrite !creations_resolved, H1, H2. reflexivity.
Qed.

Lemma second_run_second_root_witness :
  resolved (trace (run Reference.env (main helloApp) (Reference.start page)))
    = [Some [1]] /\
  resolved
    (trace (run Reference.env (main helloApp)
              (final (run Reference.env (main helloApp)
                        (Reference.start page)))))
    = [Some [1]] /\
  creations
    (trace (run Reference.env (main helloApp) (Reference.start page))
     ++ trace (run Reference.env (main helloApp)
                 (final (run Reference.env (main helloApp)
                           (Reference.start page)))))
    = [Some [1]; Some [1]].
Proof.
  split; [reflexivity |].
  split; [reflexivity |].
  apply (second_run_second_root Reference.env helloApp (Reference.start page)
           [1]).
  - reflexivity.
  - reflexivity.
Defined.

(** ** The one write to the document *)




Example failed_import_stops_the_module :
  trace (run (failingImport "./App.jsx") (main helloApp) (Reference.start page))
    = [EvImport "react" ok; EvImport "react-dom/client" ok;
       EvImport "./App.jsx" (Threw (JsError "Module evaluation failed."))] /\
  Reference.loaded
    (final (run (failingImport "./App.jsx") (main helloApp)
              (Reference.start page)))
    = ["react"; "react-dom/client"].
Proof. split; reflexivity. Qed.
